(** * VST3Loader: the validator shim of [VST3Loader/main.cpp]

    The translation unit defines one global, [moduleHandle], and two
    functions, [run] and [testVST3].  Everything else it touches is
    external to it: [InitModule], [DeinitModule] and the class
    [Steinberg::Vst::Validator] (constructor, [run] method, destructor).

    The embedding is shallow.  The external entry points are the fields
    of a record [Externals]; each is a function of the process state that
    may return, throw a C++ exception, or never give control back.  The
    shim's own code is written in a small monad that threads the state,
    propagates exceptions the way C++ does (nothing in [main.cpp] catches
    them) and logs every external call that is made. *)

From Stdlib Require Import ZArith List String Bool Lia.
Import ListNotations.

(** ** Values *)

(** A C++ [int].  The shim never computes with one, it only passes them
    along, so no wrap-around is involved. *)
Definition int := Z.

(** A [void*]: an address, with [nullptr] the address 0. *)
Definition void_ptr := N.
Definition nullptr : void_ptr := 0%N.

(** A [char*] pointing at a NUL-terminated string. *)
Definition c_str := string.

(** ** External calls, as they are observed *)

Inductive Event : Type :=
| EvInitModule
| EvValidator (argc : int) (argv : list c_str)
| EvValidator_run
| EvValidator_dtor
| EvDeinitModule.

Definition is_InitModule (e : Event) : bool :=
  match e with EvInitModule => true | _ => false end.

Definition is_DeinitModule (e : Event) : bool :=
  match e with EvDeinitModule => true | _ => false end.

Definition is_Validator (e : Event) : bool :=
  match e with EvValidator _ _ => true | _ => false end.

(** Number of logged calls that satisfy [p]. *)
Definition invocations (p : Event -> bool) (t : list Event) : nat :=
  List.length (filter p t).

(** The calls of a complete pass through [run], in program order. *)
Definition call_order (argc : int) (argv : list c_str) : list Event :=
  [EvInitModule; EvValidator argc argv; EvValidator_run; EvValidator_dtor;
   EvDeinitModule].

Section Shim.

(** [World] is the state of the rest of the process, [Exn] the C++
    exceptions that may fly, [Obj] a constructed [Validator]. *)
Variables World Exn Obj : Type.

(** [void* moduleHandle] has external linkage, so it is part of the
    state every external function sees. *)
Record State : Type := mkState {
  moduleHandle : void_ptr;
  world : World
}.

(** [void* moduleHandle = nullptr;] *)
Definition initial_State (w : World) : State :=
  {| moduleHandle := nullptr; world := w |}.

(** How a call ends. [Hung]: control never comes back to the caller. *)
Inductive Outcome (A : Type) : Type :=
| Returned (a : A) (s : State)
| Threw (e : Exn) (s : State)
| Hung.

Arguments Returned {A} a s.
Arguments Threw {A} e s.
Arguments Hung {A}.

(** [extern bool InitModule ();], [extern bool DeinitModule ();] and the
    members of [Steinberg::Vst::Validator] used by [run].  A destructor
    is [noexcept]: it gives back a state or never returns. *)
Record Externals : Type := mkExternals {
  InitModule : State -> Outcome bool;
  DeinitModule : State -> Outcome bool;
  Validator : int -> list c_str -> State -> Outcome Obj;
  Validator_run : Obj -> State -> Outcome int;
  Validator_dtor : Obj -> State -> option State
}.

(** *** The monad of the shim's code *)

Definition M (A : Type) : Type := State -> Outcome A * list Event.

Definition ret {A} (a : A) : M A := fun s => (Returned a s, []).

Definition bind {A B} (m : M A) (k : A -> M B) : M B :=
  fun s =>
    match m s with
    | (Returned a s1, t1) => let (o, t2) := k a s1 in (o, t1 ++ t2)
    | (Threw e s1, t1) => (Threw e s1, t1)
    | (Hung, t1) => (Hung, t1)
    end.

Notation "x <- m ;; k" := (bind m (fun x => k))
  (at level 61, m at next level, right associativity).

(** An external call: logged when made, whatever its outcome. *)
Definition call {A} (ev : Event) (f : State -> Outcome A) : M A :=
  fun s => (f s, [ev]).

Definition outcome_of {A} (r : Outcome A * list Event) : Outcome A := fst r.
Definition trace_of {A} (r : Outcome A * list Event) : list Event := snd r.

Definition is_Returned {A} (o : Outcome A) : bool :=
  match o with Returned _ _ => true | _ => false end.

Definition is_Hung {A} (o : Outcome A) : bool :=
  match o with Hung => true | _ => false end.

(** The state a caller goes on with, when it gets control back. *)
Definition state_after {A} (o : Outcome A) : option State :=
  match o with
  | Returned _ s => Some s
  | Threw _ s => Some s
  | Hung => None
  end.

Variable ext : Externals.

(** The destructor call that ends the lifetime of a temporary. *)
Definition destroy {A} (v : Obj) (o : Outcome A) (s : State)
  : Outcome A * list Event :=
  match Validator_dtor ext v s with
  | Some s' =>
      (match o with
       | Returned a _ => Returned a s'
       | Threw e _ => Threw e s'
       | Hung => Hung
       end, [EvValidator_dtor])
  | None => (Hung, [EvValidator_dtor])
  end.

(** A full-expression [T (args).method ()]: the temporary is constructed,
    used, and destroyed at the end of the expression, also when the
    method leaves by an exception.  A constructor that throws leaves no
    object to destroy. *)
Definition with_temporary {A} (ctor : M Obj) (body : Obj -> M A) : M A :=
  fun s =>
    match ctor s with
    | (Returned v s1, t1) =>
        match body v s1 with
        | (Returned a s2, t2) =>
            let (o, t3) := destroy v (Returned a s2) s2 in (o, t1 ++ t2 ++ t3)
        | (Threw e s2, t2) =>
            let (o, t3) := destroy v (@Threw A e s2) s2 in (o, t1 ++ t2 ++ t3)
        | (Hung, t2) => (Hung, t1 ++ t2)
        end
    | (Threw e s1, t1) => (Threw e s1, t1)
    | (Hung, t1) => (Hung, t1)
    end.

(** *** main.cpp *)

(** [int run (int argc, char* argv[])] *)
Definition run (argc : int) (argv : list c_str) : M int :=
  _ <- call EvInitModule (InitModule ext) ;;
  result <- with_temporary
              (call (EvValidator argc argv) (Validator ext argc argv))
              (fun v => call EvValidator_run (Validator_run ext v)) ;;
  _ <- call EvDeinitModule (DeinitModule ext) ;;
  ret result.

Definition argv0 : c_str := EmptyString.
Definition argv1 : c_str :=
  "/Users/pebble8888/Library/Audio/Plug-Ins/VST3/again.vst3"%string.

(** [int testVST3 (void)] *)
Definition testVST3 : M int :=
  let argv := [argv0; argv1] in
  run 2%Z argv.

(** *** Callers *)

(** The two functions the translation unit offers. *)
Inductive ShimCall : Type :=
| CallRun (argc : int) (argv : list c_str)
| CallTestVST3.

Definition do_call (c : ShimCall) : M int :=
  match c with
  | CallRun argc argv => run argc argv
  | CallTestVST3 => testVST3
  end.

(** A caller making one call after the other, going on from the state
    the previous call left (also when it caught an exception from it);
    [None] when some call never came back. *)
Fixpoint call_sequence (cs : list ShimCall) (s : State) : option State :=
  match cs with
  | [] => Some s
  | c :: cs' =>
      match state_after (outcome_of (do_call c s)) with
      | Some s' => call_sequence cs' s'
      | None => None
      end
  end.

End Shim.

Arguments mkState {World} _ _.
Arguments moduleHandle {World} _.
Arguments world {World} _.
Arguments initial_State {World} w.
Arguments Returned {World Exn A} a s.
Arguments Threw {World Exn A} e s.
Arguments Hung {World Exn A}.
Arguments mkExternals {World Exn Obj} _ _ _ _ _.
Arguments InitModule {World Exn Obj} _ _.
Arguments DeinitModule {World Exn Obj} _ _.
Arguments Validator {World Exn Obj} _ _ _ _.
Arguments Validator_run {World Exn Obj} _ _ _.
Arguments Validator_dtor {World Exn Obj} _ _ _.
Arguments outcome_of {World Exn A} r.
Arguments trace_of {World Exn A} r.
Arguments is_Returned {World Exn A} o.
Arguments is_Hung {World Exn A} o.
Arguments state_after {World Exn A} o.
Arguments run {World Exn Obj} ext argc argv s.
Arguments testVST3 {World Exn Obj} ext s.
Arguments do_call {World Exn Obj} ext c s.
Arguments call_sequence {World Exn Obj} ext cs s.

(** ** Assumptions about the external side *)

Section Assumptions.

Context {World Exn Obj : Type}.

(** A call that, when it gives control back, has left [moduleHandle]
    as it found it. *)
Definition keeps_moduleHandle {A}
    (f : State World -> Outcome World Exn A) : Prop :=
  forall s s', state_after (f s) = Some s' ->
               moduleHandle s' = moduleHandle s.

Definition externals_keep_moduleHandle (ext : Externals World Exn Obj)
  : Prop :=
  keeps_moduleHandle (InitModule ext) /\
  keeps_moduleHandle (DeinitModule ext) /\
  (forall argc argv, keeps_moduleHandle (Validator ext argc argv)) /\
  (forall v, keeps_moduleHandle (Validator_run ext v)) /\
  (forall v s s', Validator_dtor ext v s = Some s' ->
                  moduleHandle s' = moduleHandle s).

(** Every external call gives control back, by return or by exception. *)
Definition externals_terminate (ext : Externals World Exn Obj) : Prop :=
  (forall s, is_Hung (InitModule ext s) = false) /\
  (forall s, is_Hung (DeinitModule ext s) = false) /\
  (forall argc argv s, is_Hung (Validator ext argc argv s) = false) /\
  (forall v s, is_Hung (Validator_run ext v s) = false) /\
  (forall v s, Validator_dtor ext v s <> None).


(** Two external sides that may differ only in what the [Validator]
    constructor does with arguments other than [argc], [argv]. *)
Definition same_but_other_arguments (argc : int) (argv : list c_str)
    (ext ext' : Externals World Exn Obj) : Prop :=
  (forall s, InitModule ext s = InitModule ext' s) /\
  (forall s, DeinitModule ext s = DeinitModule ext' s) /\
  (forall s, Validator ext argc argv s = Validator ext' argc argv s) /\
  (forall v s, Validator_run ext v s = Validator_run ext' v s) /\
  (forall v s, Validator_dtor ext v s = Validator_dtor ext' v s).

(** The same call, returning [b] wherever it returned anything. *)
Definition set_result {A} (b : A) (o : Outcome World Exn A)
  : Outcome World Exn A :=
  match o with
  | Returned _ s => Returned b s
  | Threw e s => Threw e s
  | Hung => Hung
  end.

(** The external side [ext] with the booleans of [InitModule] and
    [DeinitModule] replaced by [bi] and [bd]; effects are untouched. *)
Definition with_module_results (bi bd : State World -> bool)
    (ext : Externals World Exn Obj) : Externals World Exn Obj :=
  mkExternals
    (fun s => set_result (bi s) (InitModule ext s))
    (fun s => set_result (bd s) (DeinitModule ext s))
    (Validator ext)
    (Validator_run ext)
    (Validator_dtor ext).

End Assumptions.

(** ** Further notions: lifetimes, the global, repeated calls *)

Definition is_Validator_dtor (e : Event) : bool :=
  match e with EvValidator_dtor => true | _ => false end.

Section Observations.

Context {World Exn Obj : Type}.

(** The state [s] with [h] stored in [moduleHandle]. *)
Definition with_moduleHandle (h : void_ptr) (s : State World) : State World :=
  mkState h (world s).

(** The outcome [o], with [h] stored in [moduleHandle] where it ends. *)
Definition relocated {A} (h : void_ptr) (o : Outcome World Exn A)
  : Outcome World Exn A :=
  match o with
  | Returned a s => Returned a (with_moduleHandle h s)
  | Threw e s => Threw e (with_moduleHandle h s)
  | Hung => Hung
  end.

(** A call that neither reads nor writes [moduleHandle]: whatever the
    global holds, the call does the same and leaves the global as it is. *)
Definition ignores_moduleHandle {A}
    (f : State World -> Outcome World Exn A) : Prop :=
  forall h s, f (with_moduleHandle h s) = relocated h (f s).

Definition externals_ignore_moduleHandle (ext : Externals World Exn Obj)
  : Prop :=
  ignores_moduleHandle (InitModule ext) /\
  ignores_moduleHandle (DeinitModule ext) /\
  (forall argc argv, ignores_moduleHandle (Validator ext argc argv)) /\
  (forall v, ignores_moduleHandle (Validator_run ext v)) /\
  (forall v h s, Validator_dtor ext v (with_moduleHandle h s) =
                 option_map (with_moduleHandle h) (Validator_dtor ext v s)).

(** The external calls made by the caller of [call_sequence], one call's
    log after the other, up to the first call that never came back. *)
Fixpoint call_sequence_log (ext : Externals World Exn Obj)
    (cs : list ShimCall) (s : State World) : list Event :=
  match cs with
  | [] => []
  | c :: cs' =>
      trace_of (do_call ext c s) ++
      match state_after (outcome_of (do_call ext c s)) with
      | Some s' => call_sequence_log ext cs' s'
      | None => []
      end
  end.

(** Whether every call of the sequence returned (none threw or hung). *)
Fixpoint every_call_returned (ext : Externals World Exn Obj)
    (cs : list ShimCall) (s : State World) : bool :=
  match cs with
  | [] => true
  | c :: cs' =>
      match outcome_of (do_call ext c s) with
      | Returned _ s' => every_call_returned ext cs' s'
      | _ => false
      end
  end.

End Observations.

(** ** Sample external environments

    Small executable stand-ins for the SDK side, used to run the shim on
    concrete inputs.  The world counts the module initialisations that are
    still open; a [Validator] object remembers the arguments it was built
    from; its [run] answers 0 when it was given exactly one plug-in path
    and the usage code 2 otherwise. *)

Module Sample.

Definition World := nat.
Definition Exn := string.
Definition Obj := (int * list c_str)%type.

Definition St := State World.
Definition Env := Externals World Exn Obj.

Definition open_module (s : St) : St :=
  mkState (moduleHandle s) (S (world s)).

Definition close_module (s : St) : St :=
  mkState (moduleHandle s) (pred (world s)).

Definition exit_code (v : Obj) : int :=
  if Z.eqb (fst v) 2 then 0%Z else 2%Z.

(** Every call returns. *)
Definition well_behaved : Env :=
  mkExternals
    (fun s => Returned true (open_module s))
    (fun s => Returned true (close_module s))
    (fun argc argv s => Returned (argc, argv) s)
    (fun v s => Returned (exit_code v) s)
    (fun _ s => Some s).

(** [InitModule] reports failure by its boolean. *)
Definition init_fails : Env :=
  mkExternals
    (fun s => Returned false s)
    (DeinitModule well_behaved)
    (Validator well_behaved)
    (Validator_run well_behaved)
    (Validator_dtor well_behaved).

(** [InitModule] throws. *)
Definition init_throws : Env :=
  mkExternals
    (fun s => Threw "init"%string s)
    (DeinitModule well_behaved)
    (Validator well_behaved)
    (Validator_run well_behaved)
    (Validator_dtor well_behaved).

(** The [Validator] constructor throws. *)
Definition ctor_throws : Env :=
  mkExternals
    (InitModule well_behaved)
    (DeinitModule well_behaved)
    (fun _ _ s => Threw "bad_alloc"%string s)
    (Validator_run well_behaved)
    (Validator_dtor well_behaved).

(** The validator's [run] method throws: a test case aborts. *)
Definition run_throws : Env :=
  mkExternals
    (InitModule well_behaved)
    (DeinitModule well_behaved)
    (Validator well_behaved)
    (fun _ s => Threw "test aborted"%string s)
    (Validator_dtor well_behaved).

(** A constructor that refuses every argument count but 2. *)
Definition strict_ctor : Env :=
  mkExternals
    (InitModule well_behaved)
    (DeinitModule well_behaved)
    (fun argc argv s =>
       if Z.eqb argc 2 then Returned (argc, argv) s else Threw "usage"%string s)
    (Validator_run well_behaved)
    (Validator_dtor well_behaved).


(** The validator's [run] method never comes back. *)
Definition run_hangs : Env :=
  mkExternals
    (InitModule well_behaved)
    (DeinitModule well_behaved)
    (Validator well_behaved)
    (fun _ _ => Hung)
    (Validator_dtor well_behaved).

(** [DeinitModule] throws. *)
Definition deinit_throws : Env :=
  mkExternals
    (InitModule well_behaved)
    (fun s => Threw "deinit"%string s)
    (Validator well_behaved)
    (Validator_run well_behaved)
    (Validator_dtor well_behaved).

Definition s0 : St := initial_State 0.

Definition plugin : list c_str := ["validator"%string; "/plug.vst3"%string].

End Sample.

(** ** Proof support *)

(** Opens the shim's code down to the external calls. *)
Ltac open_shim :=
  unfold testVST3, run, bind, with_temporary, call, destroy, ret,
    outcome_of, trace_of in *.

(** Case analysis on the outcome of every external call that is reached. *)
Ltac by_outcomes :=
  repeat match goal with
    | |- context [match ?x with _ => _ end] =>
        lazymatch type of x with
        | Outcome _ _ _ => destruct x eqn:?
        | option _ => destruct x eqn:?
        end
    | H : context [match ?x with _ => _ end] |- _ =>
        lazymatch type of x with
        | Outcome _ _ _ => destruct x eqn:?
        | option _ => destruct x eqn:?
        end
    end; cbn in *.

(** Closes a goal whose hypothesis [H] finds an event in a log that does
    not hold it. *)
Ltac absent_event H :=
  exfalso; cbn in H;
  repeat (destruct H as [H | H]; [discriminate H |]);
  exact H.

Section Facts.

Context {World Exn Obj : Type}.
Implicit Types (ext : Externals World Exn Obj) (s : State World).
Implicit Types (argc : int) (argv : list c_str).

(** A complete pass: every external call returns. *)
Lemma run_complete ext argc argv s b1 s1 v s2 r s3 s4 b2 s5 :
  InitModule ext s = Returned b1 s1 ->
  Validator ext argc argv s1 = Returned v s2 ->
  Validator_run ext v s2 = Returned r s3 ->
  Validator_dtor ext v s3 = Some s4 ->
  DeinitModule ext s4 = Returned b2 s5 ->
  run ext argc argv s = (Returned r s5, call_order argc argv).
Proof.
  intros H1 H2 H3 H4 H5. open_shim.
  rewrite H1, H2, H3, H4, H5. reflexivity.
Qed.

(** Conversely, [run] returns only after a complete pass. *)
Lemma run_returned_inv ext argc argv s r s5 t :
  run ext argc argv s = (Returned r s5, t) ->
  exists b1 s1 v s2 s3 s4 b2,
    InitModule ext s = Returned b1 s1 /\
    Validator ext argc argv s1 = Returned v s2 /\
    Validator_run ext v s2 = Returned r s3 /\
    Validator_dtor ext v s3 = Some s4 /\
    DeinitModule ext s4 = Returned b2 s5 /\
    t = call_order argc argv.
Proof.
  open_shim. intros H. by_outcomes; try discriminate.
  inversion H; subst. repeat eexists; eauto.
Qed.


(** [run] when the constructor throws, hangs, or the [run] method throws. *)
Lemma run_when_ctor_throws ext argc argv s b1 s1 e s2 :
  InitModule ext s = Returned b1 s1 ->
  Validator ext argc argv s1 = Threw e s2 ->
  run ext argc argv s = (Threw e s2, [EvInitModule; EvValidator argc argv]).
Proof.
  intros H1 H2. open_shim. rewrite H1, H2. reflexivity.
Qed.

Lemma run_when_ctor_hangs ext argc argv s b1 s1 :
  InitModule ext s = Returned b1 s1 ->
  Validator ext argc argv s1 = Hung ->
  run ext argc argv s = (Hung, [EvInitModule; EvValidator argc argv]).
Proof.
  intros H1 H2. open_shim. rewrite H1, H2. reflexivity.
Qed.

Lemma run_when_method_throws ext argc argv s b1 s1 v s2 e s3 s4 :
  InitModule ext s = Returned b1 s1 ->
  Validator ext argc argv s1 = Returned v s2 ->
  Validator_run ext v s2 = Threw e s3 ->
  Validator_dtor ext v s3 = Some s4 ->
  run ext argc argv s =
    (Threw e s4,
     [EvInitModule; EvValidator argc argv; EvValidator_run; EvValidator_dtor]).
Proof.
  intros H1 H2 H3 H4. open_shim. rewrite H1, H2, H3, H4. reflexivity.
Qed.

(** [run] never passes on more than the five calls of [call_order], and
    what it logs is an initial part of them. *)
Lemma run_trace_prefix ext argc argv s :
  exists n, 1 <= n <= 5 /\
            trace_of (run ext argc argv s) = firstn n (call_order argc argv).
Proof.
  open_shim. by_outcomes;
    first [ exists 1; split; [lia | reflexivity]
          | exists 2; split; [lia | reflexivity]
          | exists 3; split; [lia | reflexivity]
          | exists 4; split; [lia | reflexivity]
          | exists 5; split; [lia | reflexivity] ].
Qed.

(** C2. [run] returns the integer [r] exactly when [InitModule], the
    construction of the [Validator] from [argc] and [argv], its [run]
    method, its destruction and [DeinitModule] all return and the [run]
    method returned that same [r]: the validator's integer is handed back
    as it is. *)
Theorem run_returns_validator_result ext argc argv s r s5 t :
  run ext argc argv s = (Returned r s5, t) <->
  exists b1 s1 v s2 s3 s4 b2,
    InitModule ext s = Returned b1 s1 /\
    Validator ext argc argv s1 = Returned v s2 /\
    Validator_run ext v s2 = Returned r s3 /\
    Validator_dtor ext v s3 = Some s4 /\
    DeinitModule ext s4 = Returned b2 s5 /\
    t = call_order argc argv.
Proof.
  split.
  - apply run_returned_inv.
  - intros (b1 & s1 & v & s2 & s3 & s4 & b2 & H1 & H2 & H3 & H4 & H5 & ->).
    eapply run_complete; eassumption.
Qed.

(** C1, amended. Every execution of [run] invokes [InitModule] exactly
    once and [DeinitModule] at most once; whenever [run] returns,
    [DeinitModule] was invoked exactly once, so at every normal exit of
    [run] the two counts are equal. *)
Theorem run_module_calls_paired_on_return ext argc argv s :
  invocations is_InitModule (trace_of (run ext argc argv s)) = 1 /\
  invocations is_DeinitModule (trace_of (run ext argc argv s)) <= 1 /\
  (is_Returned (outcome_of (run ext argc argv s)) = true ->
   invocations is_DeinitModule (trace_of (run ext argc argv s)) =
   invocations is_InitModule (trace_of (run ext argc argv s))).
Proof.
  open_shim. by_outcomes; unfold invocations; cbn;
    repeat split; solve [lia | discriminate | reflexivity].
Qed.

(** C3, amended. [DeinitModule] is invoked on exactly the paths of [run]
    on which [InitModule], the construction of the [Validator], its [run]
    method and its destruction returned normally; these include every
    path on which [run] returns.  When the validator's [run] method
    throws, the temporary is destroyed, the exception leaves [run] and
    [DeinitModule] is not invoked. *)
Theorem run_teardown_paths ext argc argv s :
  (In EvDeinitModule (trace_of (run ext argc argv s)) <->
   exists b1 s1 v s2 r s3 s4,
     InitModule ext s = Returned b1 s1 /\
     Validator ext argc argv s1 = Returned v s2 /\
     Validator_run ext v s2 = Returned r s3 /\
     Validator_dtor ext v s3 = Some s4) /\
  (is_Returned (outcome_of (run ext argc argv s)) = true ->
   In EvDeinitModule (trace_of (run ext argc argv s))) /\
  (forall b1 s1 v s2 e s3 s4,
     InitModule ext s = Returned b1 s1 ->
     Validator ext argc argv s1 = Returned v s2 ->
     Validator_run ext v s2 = Threw e s3 ->
     Validator_dtor ext v s3 = Some s4 ->
     run ext argc argv s =
       (Threw e s4, [EvInitModule; EvValidator argc argv; EvValidator_run;
                     EvValidator_dtor])).
Proof.
  split; [split | split].
  - open_shim. intros HIn. by_outcomes;
      first [ solve [do 7 eexists; repeat split; eassumption]
            | absent_event HIn ].
  - intros (b1 & s1 & v & s2 & r & s3 & s4 & H1 & H2 & H3 & H4).
    open_shim. rewrite H1, H2, H3, H4.
    destruct (DeinitModule ext s4); cbn; auto 10.
  - open_shim. by_outcomes; intros; try discriminate; auto 10.
  - intros b1 s1 v s2 e s3 s4 H1 H2 H3 H4. open_shim.
    rewrite H1, H2, H3, H4. reflexivity.
Qed.

(** C4, amended. In every execution of [run] the calls made are an
    initial part of the sequence [InitModule], construction of the
    [Validator] from the arguments, its [run] method, its destruction,
    [DeinitModule], with at least the first of them: nothing is reordered
    or repeated.  The sequence is complete whenever [run] returns, and
    when every call returns [run] makes all of them and then returns the
    integer. *)
Theorem run_call_order ext argc argv s :
  (exists n, 1 <= n <= 5 /\
     trace_of (run ext argc argv s) = firstn n (call_order argc argv)) /\
  (is_Returned (outcome_of (run ext argc argv s)) = true ->
   trace_of (run ext argc argv s) = call_order argc argv) /\
  (forall b1 s1 v s2 r s3 s4 b2 s5,
     InitModule ext s = Returned b1 s1 ->
     Validator ext argc argv s1 = Returned v s2 ->
     Validator_run ext v s2 = Returned r s3 ->
     Validator_dtor ext v s3 = Some s4 ->
     DeinitModule ext s4 = Returned b2 s5 ->
     run ext argc argv s = (Returned r s5, call_order argc argv)).
Proof.
  split; [apply run_trace_prefix | split].
  - open_shim. by_outcomes; intros; try discriminate; reflexivity.
  - intros. eapply run_complete; eassumption.
Qed.

(** [run] consults the external side only through the calls it makes:
    external sides that answer those calls alike give the same execution. *)
Lemma run_same_but_other_arguments ext ext' argc argv s :
  same_but_other_arguments argc argv ext ext' ->
  run ext' argc argv s = run ext argc argv s.
Proof.
  intros (HI & HD & HV & HR & HX). open_shim.
  rewrite <- HI. destruct (InitModule ext s) as [b1 s1 | e s1 |]; cbn; trivial.
  rewrite <- HV. destruct (Validator ext argc argv s1) as [v s2 | e s2 |];
    cbn; trivial.
  rewrite <- HR. destruct (Validator_run ext v s2) as [r s3 | e s3 |];
    cbn; trivial; rewrite <- HX;
    destruct (Validator_dtor ext v s3) as [s4 |]; cbn; trivial.
  rewrite <- HD. reflexivity.
Qed.

(** The constructor calls [run argc argv] makes: one, with [argc] and
    [argv], once [InitModule] has returned; none before. *)
Lemma run_constructs_from_arguments ext argc argv s :
  filter is_Validator (trace_of (run ext argc argv s)) =
    (if is_Returned (InitModule ext s) then [EvValidator argc argv] else []).
Proof.
  open_shim. by_outcomes; reflexivity.
Qed.

(** C5. [run argc argv] hands [argc] and [argv] themselves to the
    [Validator] constructor, in the very state [InitModule] left, so with
    nothing parsed, filtered, copied or rewritten in between: once
    [InitModule] has returned, what the constructor does with exactly
    these arguments in exactly that state decides how [run] goes on (its
    exception is the exception of [run], its hanging hangs [run], and the
    object it returns is the one whose [run] method supplies the result);
    the constructor is called once, with these arguments, and what it
    would do with any other arguments has no influence. *)
Theorem run_passes_arguments_unchanged ext argc argv s :
  filter is_Validator (trace_of (run ext argc argv s)) =
    (if is_Returned (InitModule ext s) then [EvValidator argc argv] else []) /\
  (forall ext', same_but_other_arguments argc argv ext ext' ->
                run ext' argc argv s = run ext argc argv s) /\
  (forall b1 s1,
     InitModule ext s = Returned b1 s1 ->
     (forall e s2,
        Validator ext argc argv s1 = Threw e s2 ->
        run ext argc argv s =
          (Threw e s2, [EvInitModule; EvValidator argc argv])) /\
     (Validator ext argc argv s1 = Hung ->
      run ext argc argv s = (Hung, [EvInitModule; EvValidator argc argv])) /\
     (forall v s2 r s3 s4 b2 s5,
        Validator ext argc argv s1 = Returned v s2 ->
        Validator_run ext v s2 = Returned r s3 ->
        Validator_dtor ext v s3 = Some s4 ->
        DeinitModule ext s4 = Returned b2 s5 ->
        run ext argc argv s = (Returned r s5, call_order argc argv)) /\
     (forall v s2 e s3 s4,
        Validator ext argc argv s1 = Returned v s2 ->
        Validator_run ext v s2 = Threw e s3 ->
        Validator_dtor ext v s3 = Some s4 ->
        run ext argc argv s =
          (Threw e s4, [EvInitModule; EvValidator argc argv; EvValidator_run;
                        EvValidator_dtor]))).
Proof.
  split; [| split].
  - apply run_constructs_from_arguments.
  - intros ext'. apply run_same_but_other_arguments.
  - intros b1 s1 H1. repeat split.
    + intros e s2. eapply run_when_ctor_throws; eassumption.
    + eapply run_when_ctor_hangs; eassumption.
    + intros v s2 r s3 s4 b2 s5. eapply run_complete; eassumption.
    + intros v s2 e s3 s4. eapply run_when_method_throws; eassumption.
Qed.


(** C7. [testVST3] is the call of [run] with [argc = 2] and the two-entry
    vector whose entry 0 is the empty string and whose entry 1 is the
    fixed path: it ends as that call ends, returning the integer it
    returns, and the [Validator] it has constructed, once [InitModule]
    has returned, is built from exactly these arguments. *)
Theorem testVST3_calls_run ext s :
  testVST3 ext s =
    run ext 2%Z
      [EmptyString;
       "/Users/pebble8888/Library/Audio/Plug-Ins/VST3/again.vst3"%string] s /\
  filter is_Validator (trace_of (testVST3 ext s)) =
    (if is_Returned (InitModule ext s)
     then [EvValidator 2%Z
             [EmptyString;
              "/Users/pebble8888/Library/Audio/Plug-Ins/VST3/again.vst3"%string]]
     else []).
Proof.
  split.
  - reflexivity.
  - unfold testVST3. rewrite run_constructs_from_arguments. reflexivity.
Qed.

(** [run] has no assignment to [moduleHandle]: the value after a call is
    the value the external calls left. *)
Lemma run_keeps_moduleHandle ext argc argv s s' :
  externals_keep_moduleHandle ext ->
  state_after (outcome_of (run ext argc argv s)) = Some s' ->
  moduleHandle s' = moduleHandle s.
Proof.
  intros (HI & HD & HV & HR & HX). open_shim.
  pose proof (HI s) as KI.
  destruct (InitModule ext s) as [b1 s1 | e s1 |]; cbn in *;
    [| intros [= <-]; auto | discriminate].
  rewrite <- (KI s1 eq_refl). clear KI.
  pose proof (HV argc argv s1) as KV.
  destruct (Validator ext argc argv s1) as [v s2 | e s2 |]; cbn in *;
    [| intros [= <-]; auto | discriminate].
  rewrite <- (KV s2 eq_refl). clear KV.
  pose proof (HR v s2) as KR. pose proof (HX v) as KX.
  destruct (Validator_run ext v s2) as [r s3 | e s3 |]; cbn in *;
    [| | discriminate]; rewrite <- (KR s3 eq_refl); clear KR;
    specialize (KX s3);
    destruct (Validator_dtor ext v s3) as [s4 |]; cbn in *;
    try discriminate; rewrite <- (KX s4 eq_refl); clear KX.
  - pose proof (HD s4) as KD.
    destruct (DeinitModule ext s4) as [b2 s5 | e s5 |]; cbn in *;
      [intros [= <-] | intros [= <-] | discriminate]; auto.
  - intros [= <-]. reflexivity.
Qed.

(** C8. [moduleHandle] starts as [nullptr], and neither [run] nor
    [testVST3] assigns to it: as long as the external entry points leave
    it alone too, it is still [nullptr] after any sequence of calls of
    [run] and [testVST3]. *)
Theorem moduleHandle_stays_nullptr ext cs w s' :
  externals_keep_moduleHandle ext ->
  call_sequence ext cs (initial_State w) = Some s' ->
  moduleHandle (initial_State w) = nullptr /\ moduleHandle s' = nullptr.
Proof.
  intros Hext H0. split; [reflexivity |]. revert H0.
  assert (G : forall l s, call_sequence ext l s = Some s' ->
                          moduleHandle s' = moduleHandle s).
  { intros l. induction l as [| c l' IH]; intros s; cbn.
    - intros [= <-]. reflexivity.
    - destruct (state_after (outcome_of (do_call ext c s))) as [s1 |] eqn:E;
        [| discriminate].
      intros H. rewrite (IH _ H).
      destruct c as [argc argv |].
      + exact (run_keeps_moduleHandle ext argc argv s s1 Hext E).
      + exact (run_keeps_moduleHandle ext 2%Z [argv0; argv1] s s1 Hext E). }
  intros H. apply (G cs (initial_State w) H).
Qed.

(** C9. The booleans answered by [InitModule] and [DeinitModule] are
    dropped: replacing them by any others leaves the whole execution of
    [run], with the integer it returns, as it was.  When [InitModule]
    answers [false], the constructor is applied to the arguments all the
    same (its exception is then the exception of [run]), the [run] method
    is invoked on the object it returned (its exception is then the
    exception of [run]), and the integer that method returns is returned
    by [run], whatever boolean [DeinitModule] answers. *)
Theorem run_ignores_module_booleans ext bi bd argc argv s :
  run (with_module_results bi bd ext) argc argv s = run ext argc argv s /\
  (forall s1, InitModule ext s = Returned false s1 ->
     In (EvValidator argc argv) (trace_of (run ext argc argv s)) /\
     (forall v s2, Validator ext argc argv s1 = Returned v s2 ->
        In EvValidator_run (trace_of (run ext argc argv s))) /\
     (forall e s2,
        Validator ext argc argv s1 = Threw e s2 ->
        run ext argc argv s =
          (Threw e s2, [EvInitModule; EvValidator argc argv])) /\
     (forall v s2 e s3 s4,
        Validator ext argc argv s1 = Returned v s2 ->
        Validator_run ext v s2 = Threw e s3 ->
        Validator_dtor ext v s3 = Some s4 ->
        run ext argc argv s =
          (Threw e s4, [EvInitModule; EvValidator argc argv; EvValidator_run;
                        EvValidator_dtor])) /\
     (forall v s2 r s3 s4 b2 s5,
        Validator ext argc argv s1 = Returned v s2 ->
        Validator_run ext v s2 = Returned r s3 ->
        Validator_dtor ext v s3 = Some s4 ->
        DeinitModule ext s4 = Returned b2 s5 ->
        run ext argc argv s = (Returned r s5, call_order argc argv))).
Proof.
  split.
  - open_shim. unfold with_module_results, set_result. cbn.
    destruct (InitModule ext s) as [b1 s1 | e s1 |]; cbn; trivial.
    destruct (Validator ext argc argv s1) as [v s2 | e s2 |]; cbn; trivial.
    destruct (Validator_run ext v s2) as [r s3 | e s3 |]; cbn; trivial;
      destruct (Validator_dtor ext v s3) as [s4 |]; cbn; trivial.
    destruct (DeinitModule ext s4) as [b2 s5 | e s5 |]; reflexivity.
  - intros s1 H1. split; [| split; [| split; [| split]]].
    + open_shim. rewrite H1. by_outcomes; cbn; auto.
    + intros v s2 H2. open_shim. rewrite H1, H2. by_outcomes; cbn; auto.
    + intros e s2. eapply run_when_ctor_throws; eassumption.
    + intros v s2 e s3 s4. eapply run_when_method_throws; eassumption.
    + intros v s2 r s3 s4 b2 s5. eapply run_complete; eassumption.
Qed.

(** C10. [run] and [testVST3] get to their end whenever the external
    calls do: if no external call hangs, each of the two functions gives
    control back, by return or by exception, after at most five calls. *)
Theorem run_terminates ext argc argv s :
  externals_terminate ext ->
  is_Hung (outcome_of (run ext argc argv s)) = false /\
  is_Hung (outcome_of (testVST3 ext s)) = false /\
  List.length (trace_of (run ext argc argv s)) <= 5 /\
  List.length (trace_of (testVST3 ext s)) <= 5.
Proof.
  intros (HI & HD & HV & HR & HX).
  assert (G : forall a v,
             is_Hung (outcome_of (run ext a v s)) = false /\
             List.length (trace_of (run ext a v s)) <= 5).
  { intros a v. split.
    - open_shim.
      pose proof (HI s) as KI.
      destruct (InitModule ext s) as [b1 s1 | e s1 |]; cbn in *; trivial.
      pose proof (HV a v s1) as KV.
      destruct (Validator ext a v s1) as [o s2 | e s2 |]; cbn in *; trivial.
      pose proof (HR o s2) as KR.
      destruct (Validator_run ext o s2) as [r s3 | e s3 |]; cbn in *;
        trivial; pose proof (HX o s3) as KX;
        destruct (Validator_dtor ext o s3) as [s4 |]; cbn in *;
        trivial; try congruence.
      pose proof (HD s4) as KD.
      destruct (DeinitModule ext s4) as [b2 s5 | e s5 |]; cbn in *; trivial.
    - destruct (run_trace_prefix ext a v s) as (n & Hn & ->).
      rewrite length_firstn. cbn. lia. }
  destruct (G argc argv) as [G1 G2].
  destruct (G 2%Z [argv0; argv1]) as [G3 G4].
  repeat split; assumption.
Qed.

End Facts.

(** ** The shim on concrete inputs *)

(** C1, counterexample. The [Validator] constructor throws: [InitModule]
    has been invoked once, [DeinitModule] not at all, and [run] is left by
    the exception with one module initialisation still open. *)
Lemma run_ctor_throws_unpaired :
  run Sample.ctor_throws 2%Z Sample.plugin Sample.s0 =
    (Threw "bad_alloc"%string (mkState nullptr 1),
     [EvInitModule; EvValidator 2%Z Sample.plugin]) /\
  invocations is_InitModule
    (trace_of (run Sample.ctor_throws 2%Z Sample.plugin Sample.s0)) = 1 /\
  invocations is_DeinitModule
    (trace_of (run Sample.ctor_throws 2%Z Sample.plugin Sample.s0)) = 0 /\
  invocations is_InitModule
    (trace_of (run Sample.ctor_throws 2%Z Sample.plugin Sample.s0)) <>
  invocations is_DeinitModule
    (trace_of (run Sample.ctor_throws 2%Z Sample.plugin Sample.s0)).
Proof.
  repeat split. cbv. discriminate.
Qed.

(** C1, witness: a run that returns has made one call of each. *)
Lemma run_module_calls_paired_on_return_witness :
  is_Returned
    (outcome_of (run Sample.well_behaved 2%Z Sample.plugin Sample.s0)) = true /\
  invocations is_DeinitModule
    (trace_of (run Sample.well_behaved 2%Z Sample.plugin Sample.s0)) =
  invocations is_InitModule
    (trace_of (run Sample.well_behaved 2%Z Sample.plugin Sample.s0)).
Proof.
  split; [reflexivity |].
  apply (proj2 (proj2 (run_module_calls_paired_on_return
                         Sample.well_behaved 2%Z Sample.plugin Sample.s0))).
  reflexivity.
Defined.

(** C2, witness: the validator answers 0 and [run] returns 0. *)
Lemma run_returns_validator_result_witness :
  Validator_run Sample.well_behaved (2%Z, Sample.plugin)
    (Sample.open_module Sample.s0) =
    Returned 0%Z (Sample.open_module Sample.s0) /\
  run Sample.well_behaved 2%Z Sample.plugin Sample.s0 =
    (Returned 0%Z Sample.s0, call_order 2%Z Sample.plugin).
Proof.
  split; [reflexivity |].
  apply (proj2 (run_returns_validator_result
                  Sample.well_behaved 2%Z Sample.plugin Sample.s0
                  0%Z Sample.s0 (call_order 2%Z Sample.plugin))).
  exists true, (Sample.open_module Sample.s0), (2%Z, Sample.plugin),
    (Sample.open_module Sample.s0), (Sample.open_module Sample.s0),
    (Sample.open_module Sample.s0), true.
  repeat split; reflexivity.
Defined.

(** C3, counterexample. The validator's [run] method throws (a test case
    aborts): [InitModule] was called, the temporary is destroyed, the
    exception leaves [run], and [DeinitModule] is never called. *)
Lemma run_validator_throws_no_teardown :
  run Sample.run_throws 2%Z Sample.plugin Sample.s0 =
    (Threw "test aborted"%string (mkState nullptr 1),
     [EvInitModule; EvValidator 2%Z Sample.plugin; EvValidator_run;
      EvValidator_dtor]) /\
  In EvInitModule
    (trace_of (run Sample.run_throws 2%Z Sample.plugin Sample.s0)) /\
  ~ In EvDeinitModule
    (trace_of (run Sample.run_throws 2%Z Sample.plugin Sample.s0)).
Proof.
  split; [reflexivity | split].
  - left. reflexivity.
  - intros H. absent_event H.
Qed.

(** C3, witness: teardown on a returning path, none after a throwing
    [run] method. *)
Lemma run_teardown_paths_witness :
  In EvDeinitModule
    (trace_of (run Sample.well_behaved 2%Z Sample.plugin Sample.s0)) /\
  run Sample.run_throws 2%Z Sample.plugin Sample.s0 =
    (Threw "test aborted"%string (Sample.open_module Sample.s0),
     [EvInitModule; EvValidator 2%Z Sample.plugin; EvValidator_run;
      EvValidator_dtor]).
Proof.
  split.
  - apply (proj1 (proj2 (run_teardown_paths
                           Sample.well_behaved 2%Z Sample.plugin Sample.s0))).
    reflexivity.
  - apply (proj2 (proj2 (run_teardown_paths
                           Sample.run_throws 2%Z Sample.plugin Sample.s0))
             true (Sample.open_module Sample.s0) (2%Z, Sample.plugin)
             (Sample.open_module Sample.s0) "test aborted"%string
             (Sample.open_module Sample.s0) (Sample.open_module Sample.s0));
      reflexivity.
Defined.

(** C4, counterexample. [InitModule] throws: it is the only call made;
    no [Validator] is constructed, its [run] method is not invoked,
    [DeinitModule] is not called and no integer is returned. *)
Lemma run_init_throws_skips_rest :
  run Sample.init_throws 2%Z Sample.plugin Sample.s0 =
    (Threw "init"%string Sample.s0, [EvInitModule]) /\
  ~ In (EvValidator 2%Z Sample.plugin)
      (trace_of (run Sample.init_throws 2%Z Sample.plugin Sample.s0)) /\
  ~ In EvValidator_run
      (trace_of (run Sample.init_throws 2%Z Sample.plugin Sample.s0)) /\
  ~ In EvDeinitModule
      (trace_of (run Sample.init_throws 2%Z Sample.plugin Sample.s0)) /\
  is_Returned
    (outcome_of (run Sample.init_throws 2%Z Sample.plugin Sample.s0)) = false.
Proof.
  split; [reflexivity |].
  repeat split; intros H; absent_event H.
Qed.

(** C4, witness: a run that returns has made the five calls in order. *)
Lemma run_call_order_witness :
  is_Returned
    (outcome_of (run Sample.well_behaved 2%Z Sample.plugin Sample.s0)) = true /\
  trace_of (run Sample.well_behaved 2%Z Sample.plugin Sample.s0) =
    [EvInitModule; EvValidator 2%Z Sample.plugin; EvValidator_run;
     EvValidator_dtor; EvDeinitModule].
Proof.
  split; [reflexivity |].
  apply (proj1 (proj2 (run_call_order
                         Sample.well_behaved 2%Z Sample.plugin Sample.s0))).
  reflexivity.
Defined.

(** C5, witness: [run 2 plugin] cannot tell a constructor that accepts
    everything from one that accepts only an argument count of 2; and
    with the argument count 3 the strict constructor throws, which ends
    [run]. *)
Lemma run_passes_arguments_unchanged_witness :
  same_but_other_arguments 2%Z Sample.plugin
    Sample.well_behaved Sample.strict_ctor /\
  run Sample.strict_ctor 2%Z Sample.plugin Sample.s0 =
    run Sample.well_behaved 2%Z Sample.plugin Sample.s0 /\
  run Sample.strict_ctor 3%Z Sample.plugin Sample.s0 =
    (Threw "usage"%string (Sample.open_module Sample.s0),
     [EvInitModule; EvValidator 3%Z Sample.plugin]).
Proof.
  assert (H : same_but_other_arguments 2%Z Sample.plugin
                Sample.well_behaved Sample.strict_ctor).
  { repeat split; intros; reflexivity. }
  split; [exact H | split].
  - apply (proj1 (proj2 (run_passes_arguments_unchanged
                           Sample.well_behaved 2%Z Sample.plugin Sample.s0))
             Sample.strict_ctor H).
  - apply (proj1 (proj2 (proj2 (run_passes_arguments_unchanged
                                  Sample.strict_ctor 3%Z Sample.plugin
                                  Sample.s0))
                    true (Sample.open_module Sample.s0) eq_refl)).
    reflexivity.
Defined.



(** This sample external side never assigns to [moduleHandle]. *)
Lemma run_throws_keeps_moduleHandle :
  externals_keep_moduleHandle Sample.run_throws.
Proof.
  unfold externals_keep_moduleHandle, keeps_moduleHandle.
  repeat split; cbn; intros; match goal with
    | H : Some _ = Some _ |- _ => inversion H; reflexivity
    end.
Defined.

(** C8, witness: three calls in a row, one of them left by an exception
    of the validator, and [moduleHandle] is [nullptr] at the end. *)
Lemma moduleHandle_stays_nullptr_witness :
  call_sequence Sample.run_throws
    [CallRun 2%Z Sample.plugin; CallTestVST3; CallRun 1%Z []]
    (initial_State 0) = Some (mkState nullptr 3) /\
  moduleHandle (mkState (World := Sample.World) nullptr 3) = nullptr.
Proof.
  split; [reflexivity |].
  apply (fun H => proj2 (moduleHandle_stays_nullptr Sample.run_throws
           [CallRun 2%Z Sample.plugin; CallTestVST3; CallRun 1%Z []]
           0 (mkState nullptr 3) run_throws_keeps_moduleHandle H)).
  reflexivity.
Defined.

(** C9, witness: [InitModule] answers [false], and the [Validator] is
    constructed and run all the same, its integer being returned. *)
Lemma run_ignores_module_booleans_witness :
  InitModule Sample.init_fails Sample.s0 = Returned false Sample.s0 /\
  In (EvValidator 2%Z Sample.plugin)
    (trace_of (run Sample.init_fails 2%Z Sample.plugin Sample.s0)) /\
  In EvValidator_run
    (trace_of (run Sample.init_fails 2%Z Sample.plugin Sample.s0)) /\
  run Sample.init_fails 3%Z Sample.plugin Sample.s0 =
    (Returned 2%Z (mkState nullptr 0), call_order 3%Z Sample.plugin).
Proof.
  pose proof (proj2 (run_ignores_module_booleans Sample.init_fails
                       (fun _ => true) (fun _ => true)
                       2%Z Sample.plugin Sample.s0)
                Sample.s0 eq_refl) as (H1 & H2 & _).
  pose proof (proj2 (run_ignores_module_booleans Sample.init_fails
                       (fun _ => true) (fun _ => true)
                       3%Z Sample.plugin Sample.s0)
                Sample.s0 eq_refl) as (_ & _ & _ & _ & H5).
  split; [reflexivity | split; [exact H1 | split]].
  - apply (H2 (2%Z, Sample.plugin) Sample.s0). reflexivity.
  - apply (H5 (3%Z, Sample.plugin) Sample.s0 2%Z Sample.s0 Sample.s0
              true (mkState nullptr 0)); reflexivity.
Defined.

(** The sample external side always gives control back. *)
Lemma well_behaved_terminates : externals_terminate Sample.well_behaved.
Proof.
  unfold externals_terminate. repeat split; intros; cbn; discriminate.
Defined.

(** C10, witness: against an external side that always gives control
    back, [run] and [testVST3] come to their end. *)
Lemma run_terminates_witness :
  externals_terminate Sample.well_behaved /\
  is_Hung (outcome_of (run Sample.well_behaved 2%Z Sample.plugin Sample.s0))
    = false /\
  is_Hung (outcome_of (testVST3 Sample.well_behaved Sample.s0)) = false.
Proof.
  split; [exact well_behaved_terminates |].
  destruct (run_terminates Sample.well_behaved 2%Z Sample.plugin Sample.s0
              well_behaved_terminates) as (H1 & H2 & _).
  split; assumption.
Defined.

(** ** Exceptional exits, hangs, lifetimes and repeated calls *)

Section Behaviour.

Context {World Exn Obj : Type}.
Implicit Types (ext : Externals World Exn Obj) (s : State World).
Implicit Types (argc : int) (argv : list c_str).

(** X1. [run] neither raises exceptions of its own nor catches or
    replaces any: it is left by the exception [e] exactly when [e] was
    thrown by the first external call that failed, which is [InitModule],
    the [Validator] constructor, the validator's [run] method (after
    which the temporary is destroyed) or [DeinitModule]; in the last case
    the integer the validator had returned is lost. *)
Theorem run_exception_origin ext argc argv s e s' t :
  run ext argc argv s = (Threw e s', t) <->
  (InitModule ext s = Threw e s' /\ t = [EvInitModule]) \/
  (exists b1 s1,
     InitModule ext s = Returned b1 s1 /\
     Validator ext argc argv s1 = Threw e s' /\
     t = [EvInitModule; EvValidator argc argv]) \/
  (exists b1 s1 v s2 s3,
     InitModule ext s = Returned b1 s1 /\
     Validator ext argc argv s1 = Returned v s2 /\
     Validator_run ext v s2 = Threw e s3 /\
     Validator_dtor ext v s3 = Some s' /\
     t = [EvInitModule; EvValidator argc argv; EvValidator_run;
          EvValidator_dtor]) \/
  (exists b1 s1 v s2 r s3 s4,
     InitModule ext s = Returned b1 s1 /\
     Validator ext argc argv s1 = Returned v s2 /\
     Validator_run ext v s2 = Returned r s3 /\
     Validator_dtor ext v s3 = Some s4 /\
     DeinitModule ext s4 = Threw e s' /\
     t = call_order argc argv).
Proof.
  split.
  - open_shim. intros H. by_outcomes; try discriminate;
      inversion H; subst; clear H.
    + do 3 right. do 7 eexists. repeat split; (eassumption || reflexivity).
    + do 2 right. left. do 5 eexists.
      repeat split; (eassumption || reflexivity).
    + right. left. do 2 eexists. repeat split; (eassumption || reflexivity).
    + left. split; reflexivity.
  - intros [(H1 & ->) | [(b1 & s1 & H1 & H2 & ->) |
           [(b1 & s1 & v & s2 & s3 & H1 & H2 & H3 & H4 & ->) |
            (b1 & s1 & v & s2 & r & s3 & s4 & H1 & H2 & H3 & H4 & H5 & ->)]]];
      open_shim.
    + rewrite H1. reflexivity.
    + rewrite H1, H2. reflexivity.
    + rewrite H1, H2, H3, H4. reflexivity.
    + rewrite H1, H2, H3, H4, H5. reflexivity.
Qed.

(** X2. [run] fails to give control back exactly when the external call
    it has reached does not: [InitModule], the constructor, the
    validator's [run] method, the destructor of the temporary (after a
    [run] method that returned or threw) or [DeinitModule]. *)
Theorem run_hangs_only_in_externals ext argc argv s :
  is_Hung (outcome_of (run ext argc argv s)) = true <->
  InitModule ext s = Hung \/
  (exists b1 s1,
     InitModule ext s = Returned b1 s1 /\
     (Validator ext argc argv s1 = Hung \/
      exists v s2,
        Validator ext argc argv s1 = Returned v s2 /\
        (Validator_run ext v s2 = Hung \/
         (exists s3, state_after (Validator_run ext v s2) = Some s3 /\
                     Validator_dtor ext v s3 = None) \/
         (exists r s3 s4,
            Validator_run ext v s2 = Returned r s3 /\
            Validator_dtor ext v s3 = Some s4 /\
            DeinitModule ext s4 = Hung)))).
Proof.
  split.
  - open_shim.
    destruct (InitModule ext s) as [b1 s1 | e s1 |]; cbn;
      [| discriminate | auto].
    intros H. right. exists b1, s1. split; [reflexivity |]. revert H.
    destruct (Validator ext argc argv s1) as [v s2 | e s2 |]; cbn;
      [| discriminate | auto].
    intros H. right. exists v, s2. split; [reflexivity |]. revert H.
    destruct (Validator_run ext v s2) as [r s3 | e s3 |]; cbn; [| | auto].
    + destruct (Validator_dtor ext v s3) as [s4 |] eqn:E4; cbn.
      * destruct (DeinitModule ext s4) as [b2 s5 | e s5 |] eqn:E5; cbn;
          try discriminate.
        intros _. right. right. exists r, s3, s4. auto.
      * intros _. right. left. exists s3. auto.
    + destruct (Validator_dtor ext v s3) as [s4 |] eqn:E4; cbn;
        try discriminate.
      intros _. right. left. exists s3. auto.
  - intros [H1 | (b1 & s1 & H1 & [H2 | (v & s2 & H2 & H)])]; open_shim.
    + rewrite H1. reflexivity.
    + rewrite H1, H2. reflexivity.
    + rewrite H1, H2.
      destruct H as [H3 | [(s3 & H3 & H4) | (r & s3 & s4 & H3 & H4 & H5)]].
      * rewrite H3. reflexivity.
      * destruct (Validator_run ext v s2) as [r s3' | e s3' |];
          cbn in H3; [| | discriminate]; injection H3 as ->;
          rewrite H4; reflexivity.
      * rewrite H3, H4, H5. reflexivity.
Qed.

(** X3. Lifetime of the temporary [Validator]: it is destroyed exactly
    when it was constructed and its [run] method gave control back, by
    return or by exception; never when [InitModule] or the constructor
    failed; and [DeinitModule] is called only with the temporary already
    destroyed, as the call right after the destructor and the last call
    of [run]. *)
Theorem run_temporary_lifetime ext argc argv s :
  (In EvValidator_dtor (trace_of (run ext argc argv s)) <->
   exists b1 s1 v s2,
     InitModule ext s = Returned b1 s1 /\
     Validator ext argc argv s1 = Returned v s2 /\
     is_Hung (Validator_run ext v s2) = false) /\
  invocations is_Validator_dtor (trace_of (run ext argc argv s)) <=
    invocations is_Validator (trace_of (run ext argc argv s)) /\
  (In EvDeinitModule (trace_of (run ext argc argv s)) ->
   exists t, trace_of (run ext argc argv s) =
             t ++ [EvValidator_dtor; EvDeinitModule] /\
             ~ In EvValidator_dtor t).
Proof.
  split; [split | split].
  - open_shim.
    destruct (InitModule ext s) as [b1 s1 | e s1 |] eqn:E1; cbn;
      try (intros HIn; absent_event HIn).
    destruct (Validator ext argc argv s1) as [v s2 | e s2 |] eqn:E2; cbn;
      try (intros HIn; absent_event HIn).
    destruct (Validator_run ext v s2) as [r s3 | e s3 |] eqn:E3; cbn;
      try (intros HIn; absent_event HIn);
      intros _; exists b1, s1, v, s2; rewrite E3; auto.
  - intros (b1 & s1 & v & s2 & H1 & H2 & H3). open_shim.
    rewrite H1, H2. cbn.
    destruct (Validator_run ext v s2) as [r s3 | e s3 |]; cbn in *;
      [| | discriminate];
      destruct (Validator_dtor ext v s3) as [s4 |]; cbn; auto 10.
    destruct (DeinitModule ext s4) as [b2 s5 | e s5 |]; cbn; auto 10.
  - open_shim. unfold invocations. by_outcomes; cbn; lia.
  - open_shim. intros HIn. by_outcomes;
      first [ absent_event HIn
            | exists [EvInitModule; EvValidator argc argv; EvValidator_run];
              split; [reflexivity | intros K; absent_event K] ].
Qed.

(** [run] on a state with another value in the global. *)
Lemma run_with_moduleHandle ext argc argv h s :
  externals_ignore_moduleHandle ext ->
  run ext argc argv (with_moduleHandle h s) =
    (relocated h (outcome_of (run ext argc argv s)),
     trace_of (run ext argc argv s)).
Proof.
  intros (HI & HD & HV & HR & HX). open_shim.
  rewrite (HI h s).
  destruct (InitModule ext s) as [b1 s1 | e s1 |]; cbn; trivial.
  rewrite (HV argc argv h s1).
  destruct (Validator ext argc argv s1) as [v s2 | e s2 |]; cbn; trivial.
  rewrite (HR v h s2).
  destruct (Validator_run ext v s2) as [r s3 | e s3 |]; cbn; trivial;
    rewrite (HX v h s3);
    destruct (Validator_dtor ext v s3) as [s4 |]; cbn; trivial.
  rewrite (HD h s4).
  destruct (DeinitModule ext s4) as [b2 s5 | e s5 |]; cbn; trivial.
Qed.

(** X4. [run] and [testVST3] never read [moduleHandle]: against an
    external side that does not look at the global, they make the same
    calls and end the same way whatever address the global holds, and
    leave that address in it; it is no guard against a second
    initialisation. *)
Theorem run_never_reads_moduleHandle ext argc argv h s :
  externals_ignore_moduleHandle ext ->
  run ext argc argv (with_moduleHandle h s) =
    (relocated h (outcome_of (run ext argc argv s)),
     trace_of (run ext argc argv s)) /\
  testVST3 ext (with_moduleHandle h s) =
    (relocated h (outcome_of (testVST3 ext s)),
     trace_of (testVST3 ext s)).
Proof.
  intros H. split; [| unfold testVST3]; apply run_with_moduleHandle, H.
Qed.

(** One call of [run] or [testVST3]: [InitModule] once, [DeinitModule]
    and the destructor at most once. *)
Lemma do_call_counts ext c s :
  invocations is_InitModule (trace_of (do_call ext c s)) = 1 /\
  invocations is_DeinitModule (trace_of (do_call ext c s)) <= 1 /\
  (is_Returned (outcome_of (do_call ext c s)) = true ->
   invocations is_DeinitModule (trace_of (do_call ext c s)) = 1).
Proof.
  destruct c as [argc argv |]; cbn [do_call]; open_shim;
    by_outcomes; unfold invocations; cbn;
    repeat split; solve [lia | discriminate | reflexivity].
Qed.

Lemma invocations_app p (t1 t2 : list Event) :
  invocations p (t1 ++ t2) = invocations p t1 + invocations p t2.
Proof.
  unfold invocations. rewrite filter_app, length_app. reflexivity.
Qed.

(** X5. Nothing in the shim remembers an earlier call: in a sequence of
    calls of [run] and [testVST3] that all gave control back, [InitModule]
    is invoked once per call and [DeinitModule] at most once per call;
    when every call returned, [DeinitModule] is invoked once per call as
    well, so that no initialisation is left open. *)
Theorem call_sequence_initialises_every_time ext cs s s' :
  call_sequence ext cs s = Some s' ->
  invocations is_InitModule (call_sequence_log ext cs s) = List.length cs /\
  invocations is_DeinitModule (call_sequence_log ext cs s) <= List.length cs /\
  (every_call_returned ext cs s = true ->
   invocations is_DeinitModule (call_sequence_log ext cs s) = List.length cs).
Proof.
  revert s. induction cs as [| c cs' IH]; intros s;
    cbn [call_sequence call_sequence_log every_call_returned List.length].
  - intros _. repeat split. apply Nat.le_refl.
  - destruct (do_call_counts ext c s) as (HI & HD & HR).
    destruct (outcome_of (do_call ext c s)) as [r s1 | e s1 |];
      cbn [state_after]; [| | discriminate];
      intros H; destruct (IH s1 H) as (IHI & IHD & IHR);
      rewrite !invocations_app, HI, IHI;
      (split; [reflexivity | split; [lia |]]).
    + intros K. rewrite (HR eq_refl), (IHR K). reflexivity.
    + discriminate.
Qed.

End Behaviour.

(** X1, witness: the validator has answered 0, [DeinitModule] throws, and
    [run] is left by that exception. *)
Lemma run_exception_origin_witness :
  Validator_run Sample.deinit_throws (2%Z, Sample.plugin)
    (Sample.open_module Sample.s0) =
    Returned 0%Z (Sample.open_module Sample.s0) /\
  run Sample.deinit_throws 2%Z Sample.plugin Sample.s0 =
    (Threw "deinit"%string (Sample.open_module Sample.s0),
     call_order 2%Z Sample.plugin).
Proof.
  split; [reflexivity |].
  apply (proj2 (run_exception_origin Sample.deinit_throws 2%Z Sample.plugin
                  Sample.s0 "deinit"%string (Sample.open_module Sample.s0)
                  (call_order 2%Z Sample.plugin))).
  do 3 right.
  exists true, (Sample.open_module Sample.s0), (2%Z, Sample.plugin),
    (Sample.open_module Sample.s0), 0%Z, (Sample.open_module Sample.s0),
    (Sample.open_module Sample.s0).
  repeat split; reflexivity.
Defined.

(** X2, witness: the validator's [run] method hangs, and so does [run]. *)
Lemma run_hangs_only_in_externals_witness :
  is_Hung (outcome_of (run Sample.run_hangs 2%Z Sample.plugin Sample.s0))
    = true.
Proof.
  apply (proj2 (run_hangs_only_in_externals
                  Sample.run_hangs 2%Z Sample.plugin Sample.s0)).
  right. exists true, (Sample.open_module Sample.s0).
  split; [reflexivity |]. right.
  exists (2%Z, Sample.plugin), (Sample.open_module Sample.s0).
  split; [reflexivity |]. left. reflexivity.
Defined.

(** X3, witness: the temporary is destroyed although its [run] method
    threw; and on a complete pass [DeinitModule] follows the destructor. *)
Lemma run_temporary_lifetime_witness :
  In EvValidator_dtor
    (trace_of (run Sample.run_throws 2%Z Sample.plugin Sample.s0)) /\
  exists t,
    trace_of (run Sample.well_behaved 2%Z Sample.plugin Sample.s0) =
      t ++ [EvValidator_dtor; EvDeinitModule] /\
    ~ In EvValidator_dtor t.
Proof.
  split.
  - apply (proj2 (proj1 (run_temporary_lifetime
                           Sample.run_throws 2%Z Sample.plugin Sample.s0))).
    exists true, (Sample.open_module Sample.s0), (2%Z, Sample.plugin),
      (Sample.open_module Sample.s0).
    repeat split; reflexivity.
  - apply (proj2 (proj2 (run_temporary_lifetime
                           Sample.well_behaved 2%Z Sample.plugin Sample.s0))).
    cbn. auto 10.
Defined.

(** The sample external side does not look at [moduleHandle]. *)
Lemma well_behaved_ignores_moduleHandle :
  externals_ignore_moduleHandle Sample.well_behaved.
Proof.
  unfold externals_ignore_moduleHandle, ignores_moduleHandle.
  repeat split; intros; reflexivity.
Defined.

(** X4, witness: the same run with the address 4096 in the global. *)
Lemma run_never_reads_moduleHandle_witness :
  run Sample.well_behaved 2%Z Sample.plugin
    (with_moduleHandle 4096%N Sample.s0) =
    (Returned 0%Z (mkState 4096%N 0), call_order 2%Z Sample.plugin).
Proof.
  apply (proj1 (run_never_reads_moduleHandle Sample.well_behaved
                  2%Z Sample.plugin 4096%N Sample.s0
                  well_behaved_ignores_moduleHandle)).
Defined.

(** X5, witness: three calls, each left by an exception of the validator:
    three initialisations and no teardown. *)
Lemma call_sequence_initialises_every_time_witness :
  call_sequence Sample.run_throws
    [CallRun 2%Z Sample.plugin; CallTestVST3; CallRun 1%Z []] Sample.s0 =
    Some (mkState nullptr 3) /\
  invocations is_InitModule
    (call_sequence_log Sample.run_throws
       [CallRun 2%Z Sample.plugin; CallTestVST3; CallRun 1%Z []] Sample.s0)
    = 3.
Proof.
  split; [reflexivity |].
  apply (proj1 (call_sequence_initialises_every_time Sample.run_throws
                  [CallRun 2%Z Sample.plugin; CallTestVST3; CallRun 1%Z []]
                  Sample.s0 (mkState nullptr 3) eq_refl)).
Defined.
